(** * Serving an ONNX model through TensorFlow Serving

    A shallow embedding of the notebook [notebooks/4_production_TFServing.ipynb]:
    the tensor descriptors and signatures it builds, the export of the
    model bundle to the file system, and the HTTP requests it sends to the
    serving binary.  Every code cell of the notebook is a definition below,
    named after the variable or call of the cell. *)

From stdpp Require Import gmap strings list fin_maps pretty.
From Stdlib Require Import ZArith QArith.

Local Open Scope Z_scope.
Local Open Scope string_scope.

(** ** Exceptions and results *)

(** The Python exceptions the modelled code can raise. *)
Inductive exn : Type :=
  | ConfigurationError (msg : string)
  | AlreadyExists (path : string)
  | KeyError (key : string)
  | TypeError (msg : string)
  | ValueError (msg : string)
  | FileNotFoundError (path : string)
  | NotADirectoryError (path : string)
  | OSError (msg : string)
  | ConnectionError
  | Timeout
  | HTTPError (status : Z)
  | JSONDecodeError.

Inductive result (A : Type) : Type :=
  | Ok (a : A)
  | Raise (e : exn).
Arguments Ok {A} a.
Arguments Raise {A} e.

#[global] Instance exn_eq_dec : EqDecision exn.
Proof. solve_decision. Defined.

#[global] Instance result_ret : MRet result := @Ok.
#[global] Instance result_bind : MBind result :=
  λ A B f m, match m with Ok a => f a | Raise e => Raise e end.
#[global] Instance result_fmap : FMap result :=
  λ A B f m, match m with Ok a => Ok (f a) | Raise e => Raise e end.

Definition is_ok {A} (r : result A) : bool :=
  match r with Ok _ => true | Raise _ => false end.

(** ** Tensors and tensor descriptors *)

(** [tf.DType] of a graph tensor, as printed in the tensor dictionary of
    the converted model. *)
Inductive DType : Type := float32 | float64 | int32 | int64 | tf_string | tf_bool.

(** The [DataType] enumeration of a [TensorInfo] message; [DT_INVALID] is
    the value of a dtype field that was never set. *)
Inductive DataType : Type :=
  | DT_INVALID | DT_FLOAT | DT_DOUBLE | DT_INT32 | DT_STRING | DT_INT64 | DT_BOOL.

#[global] Instance DType_eq_dec : EqDecision DType.
Proof. solve_decision. Defined.
#[global] Instance DataType_eq_dec : EqDecision DataType.
Proof. solve_decision. Defined.

Definition as_datatype_enum (d : DType) : DataType :=
  match d with
  | float32 => DT_FLOAT
  | float64 => DT_DOUBLE
  | int32 => DT_INT32
  | int64 => DT_INT64
  | tf_string => DT_STRING
  | tf_bool => DT_BOOL
  end.

(** A tensor of the computation graph: [<tf.Tensor 'name' shape=(..) dtype=..>]. *)
Record Tensor : Type := mkTensor {
  t_name : string;
  t_shape : list Z;
  t_dtype : DType
}.

(** The [TensorInfo] message (the spec's tensor descriptor). *)
Record TensorInfo : Type := mkTensorInfo {
  name : string;
  dtype : DataType;
  tensor_shape : list Z
}.

#[global] Instance TensorInfo_eq_dec : EqDecision TensorInfo.
Proof. solve_decision. Defined.

(** The [SignatureDef] message: role key to descriptor for the inputs and
    for the outputs, and the method contract. *)
Record SignatureDef : Type := mkSignatureDef {
  inputs : gmap string TensorInfo;
  outputs : gmap string TensorInfo;
  method_name : string
}.

#[global] Instance SignatureDef_eq_dec : EqDecision SignatureDef.
Proof. solve_decision. Defined.

(** ** The converted graph (cell 8) *)

(** [dnn_model_tf.predict_net.tensor_dict], as the notebook prints it. *)
Definition tensor_dict : list (string * Tensor) :=
  [ ("weight_1", mkTensor "Const:0" [512; 784] float32);
    ("bias_1", mkTensor "Const_1:0" [512] float32);
    ("weight_2", mkTensor "Const_2:0" [256; 512] float32);
    ("bias_2", mkTensor "Const_3:0" [256] float32);
    ("weight_3", mkTensor "Const_4:0" [62; 256] float32);
    ("bias_3", mkTensor "Const_5:0" [62] float32);
    ("flattened_rescaled_img_28x28",
       mkTensor "flattened_rescaled_img_28x28:0" [1; 784] float32);
    ("7", mkTensor "add:0" [1; 512] float32);
    ("8", mkTensor "add_1:0" [1; 512] float32);
    ("9", mkTensor "add_2:0" [1; 256] float32);
    ("10", mkTensor "add_3:0" [1; 256] float32);
    ("11", mkTensor "add_4:0" [1; 62] float32);
    ("softmax_probabilities", mkTensor "Softmax:0" [1; 62] float32) ].

Definition external_input : list string := ["flattened_rescaled_img_28x28"].
Definition external_output : list string := ["softmax_probabilities"].

(** The tensors of [dnn_model_tf.predict_net.graph]. *)
Definition predict_net_graph : list Tensor := tensor_dict.*2.

(** Modelled from the spec: [graph.get_tensor_by_name] of the TensorFlow
    library, whose body is not part of the notebook.  A descriptor's tensor
    is found in the graph by its name (spec 3); a name the graph lacks
    raises [KeyError] in the model; the library has another exception for a
    name that is not of the form of a tensor name, which the model does not
    tell apart. *)
Definition get_tensor_by_name (graph : list Tensor) (n : string) : result Tensor :=
  match List.find (λ t, bool_decide (t_name t = n)) graph with
  | Some t => Ok t
  | None => Raise (KeyError n)
  end.

(** Modelled from the spec: [build_tensor_info] of the TensorFlow library,
    whose body is not part of the notebook.  The descriptor of a tensor is
    its name, dtype and shape (spec 3, Tensor Descriptor); cells 12 and 13
    print the two descriptors it returns in the notebook. *)
Definition build_tensor_info (t : Tensor) : TensorInfo :=
  {| name := t_name t;
     dtype := as_datatype_enum (t_dtype t);
     tensor_shape := t_shape t |}.

(** ** Signature constants *)

(** The values of [signature_constants] that the notebook prints in cells
    16 and 19. *)
Definition CLASSIFY_INPUTS : string := "inputs".
Definition CLASSIFY_OUTPUT_SCORES : string := "scores".
Definition CLASSIFY_METHOD_NAME : string := "tensorflow/serving/classify".
Definition PREDICT_METHOD_NAME : string := "tensorflow/serving/predict".

(** Modelled from the spec: [signature_constants.CLASSIFY_OUTPUT_CLASSES],
    which the notebook never uses; the spec (4.1) names the reserved
    output keys "scores" or "classes". *)
Definition CLASSIFY_OUTPUT_CLASSES : string := "classes".

(** ** The signature builder *)

(** A descriptor can go into a signature when its dtype is set and its
    shape has at least one dimension. *)
Definition dtype_set (ti : TensorInfo) : Prop := dtype ti ≠ DT_INVALID.
Definition shape_nonempty (ti : TensorInfo) : Prop := tensor_shape ti ≠ [].

#[global] Instance dtype_set_dec ti : Decision (dtype_set ti).
Proof. unfold dtype_set. apply _. Defined.
#[global] Instance shape_nonempty_dec ti : Decision (shape_nonempty ti).
Proof. unfold shape_nonempty. apply _. Defined.

(** Modelled from the spec: the check [build_signature_def] makes on the
    descriptors of one role (4.1); the message says which of the two
    conditions failed. *)
Definition check_descriptors (role : string) (m : gmap string TensorInfo)
  : result unit :=
  if decide (map_Forall (λ _ ti, dtype_set ti) m) then
    if decide (map_Forall (λ _ ti, shape_nonempty ti) m) then Ok tt
    else Raise (ConfigurationError (role ++ ": a tensor shape has zero dimensions"))
  else Raise (ConfigurationError (role ++ ": a tensor dtype is unset")).

(** Modelled from the spec: [signature_def_utils.build_signature_def] of
    the TensorFlow library, whose body is not part of the notebook.  The
    spec (4.1) has it fail with a configuration error when a descriptor's
    dtype is unset or its shape has zero dimensions, and otherwise return
    the signature that carries the given descriptors under the given role
    keys, with the given method name; cells 16 and 19 print the two
    signatures it returns in the notebook. *)
Definition build_signature_def (inputs outputs : gmap string TensorInfo)
    (method_name : string) : result SignatureDef :=
  _ ← check_descriptors "inputs" inputs;
  _ ← check_descriptors "outputs" outputs;
  Ok {| inputs := inputs; outputs := outputs; method_name := method_name |}.

(** ** Cells 11 to 18: descriptors and signatures *)

(** Cell 15. *)
Definition classification_signature (input_tensor_info output_tensor_info : TensorInfo)
  : result SignatureDef :=
  build_signature_def
    {[ CLASSIFY_INPUTS := input_tensor_info ]}
    {[ CLASSIFY_OUTPUT_SCORES := output_tensor_info ]}
    CLASSIFY_METHOD_NAME.

(** Cell 18. *)
Definition prediction_signature (input_tensor_info output_tensor_info : TensorInfo)
  : result SignatureDef :=
  build_signature_def
    {[ "images" := input_tensor_info ]}
    {[ "scores" := output_tensor_info ]}
    PREDICT_METHOD_NAME.

(** Cell 11. *)
Definition input_tensor : result Tensor :=
  get_tensor_by_name predict_net_graph "flattened_rescaled_img_28x28:0".
Definition output_tensor : result Tensor :=
  get_tensor_by_name predict_net_graph "Softmax:0".

Definition input_tensor_info : result TensorInfo := build_tensor_info <$> input_tensor.
Definition output_tensor_info : result TensorInfo := build_tensor_info <$> output_tensor.

(** ** The file system *)

(** A meta graph of a SavedModel: its tags, the graph and the signature
    map. *)
Record MetaGraphDef : Type := mkMetaGraphDef {
  tags : list string;
  graph_def : list Tensor;
  signature_def : gmap string SignatureDef
}.

(** What a file holds: raw text, or a serialized SavedModel, kept as the
    message it encodes. *)
Inductive file_content : Type :=
  | RawBytes (bs : string)
  | SavedModelPb (meta_graphs : list MetaGraphDef).

(** A directory tree.  The tree is the file system as seen from the
    notebook's working directory; the entry ".." of a directory is looked
    up like any other entry.  The notebook uses relative paths only, with
    ".." at their start at most; for such paths, which name each place in
    one way, the tree is faithful, and for a path with ".." further in, or
    one that names the working directory or a directory above it, it is
    not. *)
#[warnings="-register-all"] Inductive node : Type :=
  | File (content : file_content)
  | Dir (entries : gmap string node).

(** The slash. *)
Definition sep : Ascii.ascii := Ascii.Ascii true true true true false true false false.

(** The components of a path: the pieces between slashes, without the
    empty ones and without ".". *)
Fixpoint split_sep (s cur : string) : list string :=
  match s with
  | EmptyString => [cur]
  | String c s' =>
      if Ascii.eqb c sep then cur :: split_sep s' ""
      else split_sep s' (cur ++ String c "")
  end.

Definition components (p : string) : list string :=
  List.filter (λ c, negb (String.eqb c "" || String.eqb c ".")) (split_sep p "").

Definition startswith_sep (s : string) : bool :=
  match s with String c _ => Ascii.eqb c sep | EmptyString => false end.

Fixpoint endswith_sep (s : string) : bool :=
  match s with
  | EmptyString => false
  | String c EmptyString => Ascii.eqb c sep
  | String _ s' => endswith_sep s'
  end.

(** [os.path.join] of posixpath. *)
Definition os_path_join (a : string) (p : list string) : string :=
  fold_left (λ path b,
      if startswith_sep b then b
      else if String.eqb path "" || endswith_sep path then path ++ b
      else path ++ "/" ++ b) p a.

(** The node a path leads to, if any; nothing lies below a file. *)
Fixpoint lookup_path (n : node) (p : list string) : option node :=
  match p with
  | [] => Some n
  | c :: p' =>
      match n with
      | Dir es => match es !! c with Some n' => lookup_path n' p' | None => None end
      | File _ => None
      end
  end.

(** Removes the entry a path names, with everything below it. *)
Fixpoint remove_path (n : node) (p : list string) : node :=
  match p, n with
  | [], _ => n
  | _, File _ => n
  | [c], Dir es => Dir (delete c es)
  | c :: p', Dir es => Dir (alter (λ n', remove_path n' p') c es)
  end.

(** Stores a node at a path, creating the directories on the way; [None]
    when a component on the way is a file. *)
Fixpoint put_path (n : node) (p : list string) (new : node) : option node :=
  match p with
  | [] => Some new
  | c :: p' =>
      match n with
      | Dir es =>
          match put_path (default (Dir ∅) (es !! c)) p' new with
          | Some n' => Some (Dir (<[c := n']> es))
          | None => None
          end
      | File _ => None
      end
  end.

(** [os.path.exists]: a path with a trailing slash exists only as a
    directory. *)
Definition os_path_exists (fs : node) (p : string) : bool :=
  if String.eqb p "" then false
  else match lookup_path fs (components p) with
       | Some (Dir _) => true
       | Some (File _) => negb (endswith_sep p)
       | None => false
       end.

(** ** The notebook's world: file system and standard output *)

(** A decoded JSON value; a number is a rational (every finite float is
    one, and only the order of the scores matters below). *)
#[warnings="-register-all"] Inductive json : Type :=
  | JNull
  | JBool (b : bool)
  | JNum (q : Q)
  | JStr (s : string)
  | JArr (items : list json)
  | JObj (fields : list (string * json)).

(** What [print] writes: a line of text, or the [repr] of a decoded value. *)
Inductive printed : Type :=
  | Line (s : string)
  | Value (v : json).

Record World : Type := mkWorld {
  fs : node;
  stdout : list printed
}.

Definition empty_world : World := {| fs := Dir ∅; stdout := [] |}.

(** A cell runs in a world, changes it, and returns or raises; what was
    written before an exception stays written. *)
Definition notebook (A : Type) : Type := World → World * result A.

#[global] Instance notebook_ret : MRet notebook := λ A a w, (w, Ok a).
#[global] Instance notebook_bind : MBind notebook :=
  λ A B f m w,
    match m w with
    | (w', Ok a) => f a w'
    | (w', Raise e) => (w', Raise e)
    end.

Definition raise {A} (e : exn) : notebook A := λ w, (w, Raise e).
Definition lift {A} (r : result A) : notebook A := λ w, (w, r).
Definition get_fs : notebook node := λ w, (w, Ok (fs w)).
Definition set_fs (n : node) : notebook unit :=
  λ w, ({| fs := n; stdout := stdout w |}, Ok tt).
Definition print (p : printed) : notebook unit :=
  λ w, ({| fs := fs w; stdout := stdout w ++ [p] |}, Ok tt).

(** [shutil.rmtree]. *)
Definition shutil_rmtree (p : string) : notebook unit :=
  n ← get_fs;
  match lookup_path n (components p) with
  | None => raise (FileNotFoundError p)
  | Some (File _) => raise (NotADirectoryError p)
  | Some (Dir _) =>
      match components p with
      | [] => _ ← set_fs (Dir ∅); raise (OSError "cannot remove the working directory")
      | cs => set_fs (remove_path n cs)
      end
  end.

(** ** The bundle exporter *)

(** The builder object: where it will write, and the meta graphs added so
    far. *)
Record Builder : Type := mkBuilder {
  export_dir : string;
  meta_graphs : list MetaGraphDef
}.

(** Modelled from the spec: the constructor [SavedModelBuilder] of the
    TensorFlow library, whose body is not part of the notebook.  The spec
    (4.2) has the exporter fail with an "already exists" error when the
    version directory exists, without touching it. *)
Definition SavedModelBuilder (export_dir : string) : notebook Builder :=
  n ← get_fs;
  if os_path_exists n export_dir then raise (AlreadyExists export_dir)
  else mret {| export_dir := export_dir; meta_graphs := [] |}.

(** Modelled from the spec: the check of the signature map before
    anything is written (4.2, 7): a signature is malformed when one of its
    descriptors is, and the map when it lacks the default serving key. *)
Definition check_signature (s : SignatureDef) : result unit :=
  _ ← check_descriptors "inputs" (inputs s);
  check_descriptors "outputs" (outputs s).

Definition validate_signature_def_map (DEFAULT_SERVING_SIGNATURE_DEF_KEY : string)
    (m : gmap string SignatureDef) : result unit :=
  if decide (is_Some (m !! DEFAULT_SERVING_SIGNATURE_DEF_KEY)) then
    if decide (map_Forall (λ _ s, is_ok (check_signature s) = true) m) then Ok tt
    else Raise (ConfigurationError "signature map: malformed signature")
  else Raise (ConfigurationError "signature map: no entry under the default serving key").

(** Modelled from the spec: [SavedModelBuilder.add_meta_graph_and_variables]
    of the TensorFlow library, whose body is not part of the notebook.  The
    spec (4.2, 7) has a malformed signature map, one without the default
    key among them, fail before anything is written.  The reserved default
    key, whose value the notebook does not show, is a parameter. *)
Definition add_meta_graph_and_variables (DEFAULT_SERVING_SIGNATURE_DEF_KEY : string)
    (b : Builder) (sess : list Tensor) (tags : list string)
    (signature_def_map : gmap string SignatureDef) : notebook Builder :=
  _ ← lift (validate_signature_def_map DEFAULT_SERVING_SIGNATURE_DEF_KEY signature_def_map);
  mret {| export_dir := export_dir b;
          meta_graphs := meta_graphs b ++
            [ {| tags := tags; graph_def := sess; signature_def := signature_def_map |} ] |}.

(** Modelled from the spec: [SavedModelBuilder.save] of the TensorFlow
    library, whose body is not part of the notebook.  The spec (4.2) has it
    write the graph definition and the signature map under the version
    directory; the notebook's log names the file, [saved_model.pb].  The
    graph has no variables, so no variables directory is written.  Which
    exception a file in the way of the directories raises, and in which of
    the three calls, is the model's choice. *)
Definition save (b : Builder) : notebook string :=
  n ← get_fs;
  let path := os_path_join (export_dir b) ["saved_model.pb"] in
  match put_path n (components path) (File (SavedModelPb (meta_graphs b))) with
  | Some n' => _ ← set_fs n'; mret path
  | None => raise (NotADirectoryError path)
  end.

(** The exporter of the spec (4.2) as one operation: the three calls in
    the order the notebook makes them. *)
Definition export_bundle (DEFAULT_SERVING_SIGNATURE_DEF_KEY : string)
    (directory : string) (version : Z) (sess : list Tensor) (tags : list string)
    (signature_def_map : gmap string SignatureDef) : notebook string :=
  b ← SavedModelBuilder (os_path_join directory [pretty version]);
  b ← add_meta_graph_and_variables DEFAULT_SERVING_SIGNATURE_DEF_KEY b sess tags
        signature_def_map;
  save b.

(** ** Cell 6: clearing the export path and creating the builder *)

Definition export_path : string := "../models/tf_emnist/".
Definition model_version : Z := 1.
Definition model_name : string := "tf_emnist".
Definition model_path : string :=
  os_path_join ".." ["models"; model_name; pretty model_version].

(** The first three lines of the cell. *)
Definition clear_export_path : notebook unit :=
  n ← get_fs;
  if os_path_exists n export_path then shutil_rmtree export_path else mret tt.

Definition cell_6 : notebook Builder :=
  _ ← clear_export_path;
  SavedModelBuilder model_path.

(** ** Cell 21: adding the signatures and saving *)

(** [tf.saved_model.tag_constants.SERVING]; the serving binary's log in the
    notebook reads the meta graph with tags [{ serve }]. *)
Definition SERVING : string := "serve".

(** The dictionary literal of the cell; of two equal keys in a literal the
    later one stays.  The value of the default serving key, which the
    notebook does not show, is a parameter. *)
Definition signature_def_map (DEFAULT_SERVING_SIGNATURE_DEF_KEY : string)
    (prediction_signature classification_signature : SignatureDef)
  : gmap string SignatureDef :=
  <[ DEFAULT_SERVING_SIGNATURE_DEF_KEY := classification_signature ]>
    (<[ "predict_images" := prediction_signature ]> ∅).

(** The cell; [main_op] and [strip_default_attrs] are left out: they do
    not bear on what is modelled of the bundle a first run writes.  That
    the main op stays in the graph of cell 5, so that the cell cannot be
    run a second time on the same graph, is not modelled. *)
Definition cell_21 (DEFAULT_SERVING_SIGNATURE_DEF_KEY : string) (builder : Builder)
    (prediction_signature classification_signature : SignatureDef) : notebook unit :=
  b ← add_meta_graph_and_variables DEFAULT_SERVING_SIGNATURE_DEF_KEY builder
        predict_net_graph [SERVING]
        (signature_def_map DEFAULT_SERVING_SIGNATURE_DEF_KEY
           prediction_signature classification_signature);
  _ ← save b;
  print (Line "Done exporting!").

(** Cells 6 to 21 in the order of the notebook. *)
Definition export_flow (DEFAULT_SERVING_SIGNATURE_DEF_KEY : string) : notebook unit :=
  builder ← cell_6;
  iti ← lift input_tensor_info;
  oti ← lift output_tensor_info;
  cls ← lift (classification_signature iti oti);
  pred ← lift (prediction_signature iti oti);
  cell_21 DEFAULT_SERVING_SIGNATURE_DEF_KEY builder pred cls.

(** ** The serving client *)

(** What comes back from the server: a status code and a body, [None] for
    a body that is not JSON. *)
Record Response : Type := mkResponse {
  status_code : Z;
  body : option json
}.

(** How a request ends. *)
Inductive reply : Type :=
  | Refused
  | TimedOut
  | Replied (r : Response).

(** Modelled from the spec: [requests.get] and [requests.post] of the
    requests library, whose bodies are not part of the notebook.  The spec
    (7) names the ways a request fails; a refused connection ends the call
    with an exception, and so does a connection that times out: the
    notebook sets no timeout of its own, and a connection attempt the
    operating system gives up on is a connection error.  A reply of any
    status code is returned to the caller, which prints [r.status_code]. *)
Definition requests_send (o : reply) : notebook Response :=
  match o with
  | Refused => raise ConnectionError
  | TimedOut => raise ConnectionError
  | Replied r => mret r
  end.

(** Modelled from the spec: [r.json()] of the requests library: the
    decoded body, and an exception for a body that is not JSON (spec 7,
    malformed JSON). *)
Definition r_json (r : Response) : result json :=
  match body r with
  | Some v => Ok v
  | None => Raise JSONDecodeError
  end.

(** [d[key]] on a decoded value: of equal keys of an object the decoder
    keeps the last. *)
Definition getitem (v : json) (key : string) : result json :=
  match v with
  | JObj fields =>
      match List.find (λ kv, String.eqb kv.1 key) (rev fields) with
      | Some kv => Ok kv.2
      | None => Raise (KeyError key)
      end
  | _ => Raise (TypeError "indices must be integers")
  end.

Definition as_number (v : json) : option Q :=
  match v with JNum q => Some q | _ => None end.

Definition as_row (v : json) : option (list Q) :=
  match v with JArr items => mapM as_number items | _ => None end.

Definition as_rows (v : json) : option (list (list Q)) :=
  match v with JArr items => mapM as_row items | _ => None end.

Definition rectangular (rows : list (list Q)) : bool :=
  match rows with
  | [] => true
  | r :: rest => forallb (λ r', Nat.eqb (length r') (length r)) rest
  end.

(** The index of the first largest element from position [i] on, given the
    best so far. *)
Fixpoint argmax_from (best_i : nat) (best : Q) (i : nat) (l : list Q) : nat :=
  match l with
  | [] => best_i
  | x :: l' =>
      if Qle_bool x best then argmax_from best_i best (S i) l'
      else argmax_from i x (S i) l'
  end.

(** The arg-max of a score vector; an empty one has none. *)
Definition argmax (l : list Q) : option nat :=
  match l with
  | [] => None
  | x :: l' => Some (argmax_from 0 x 1 l')
  end.

(** [np.argmax] without an axis: the arg-max of the flattened array.
    Scores are compared as rationals, which is numpy's comparison for
    numbers that are doubles ([float64_exact] below) and not for others.
    For a ragged value, an array of more dimensions or a value that is not
    a number the result depends on numpy's coercions and is not modelled:
    the call is taken to raise. *)
Definition np_argmax (v : json) : result nat :=
  match as_rows v with
  | Some rows =>
      if rectangular rows then
        match argmax (concat rows) with
        | Some i => Ok i
        | None => Raise (ValueError "attempt to get argmax of an empty sequence")
        end
      else Raise (TypeError "ragged array")
  | None =>
      match as_row v with
      | Some row =>
          match argmax row with
          | Some i => Ok i
          | None => Raise (ValueError "attempt to get argmax of an empty sequence")
          end
      | None =>
          match v with
          | JNum _ => Ok 0%nat
          | _ => Raise (TypeError "not a numeric array")
          end
      end
  end.

(** Cell 29: the status request. *)
Definition cell_29 (o : reply) : notebook unit :=
  r ← requests_send o;
  _ ← print (Line ("HTTP Response Status Code: " ++ pretty (status_code r)));
  v ← lift (r_json r);
  print (Value v).

(** Cells 32 and 33: the request with one random image. *)
Definition json_rows (rows : list (list Q)) : json :=
  JArr ((λ row, JArr (JNum <$> row)) <$> rows).

Definition data_payload (random_img : list (list Q)) : json :=
  JObj [("instances", json_rows random_img)].

Definition cell_33 (o : reply) : notebook Response := requests_send o.

(** Cell 34. *)
Definition cell_34 (r : Response) : notebook unit :=
  _ ← print (Line ("HTTP Response Status Code: " ++ pretty (status_code r)));
  _ ← print (Line "HTTP Response content as json:");
  v ← lift (r_json r);
  _ ← print (Value v);
  v' ← lift (r_json r);
  p ← lift (getitem v' "predictions");
  i ← lift (np_argmax p);
  print (Line ("Class Index Prediction: " ++ pretty i)).

(** Cells 33 and 34 in a row. *)
Definition predict_request (o : reply) : notebook unit :=
  r ← cell_33 o;
  cell_34 r.

(** ** The accuracy evaluation *)

Record example : Type := mkExample {
  image : list Q;
  label : nat
}.

(** Modelled from the spec: one predict request of the evaluation (4.3):
    the [predictions] field of the response as per-example score vectors.
    A refused connection, a timeout, a status code outside 2xx and a body
    that does not decode are the failures of a request (7). *)
Definition request_scores (o : reply) : result (list (list Q)) :=
  match o with
  | Refused => Raise ConnectionError
  | TimedOut => Raise Timeout
  | Replied r =>
      if Z.leb 200 (status_code r) && Z.ltb (status_code r) 300 then
        v ← r_json r;
        p ← getitem v "predictions";
        match as_rows p with
        | Some rows => Ok rows
        | None => Raise JSONDecodeError
        end
      else Raise (HTTPError (status_code r))
  end.

(** Modelled from the spec: the predicted class of every example is the
    arg-max of its score vector (4.3). *)
Definition predicted_classes (predictions : list (list Q)) : option (list nat) :=
  mapM argmax predictions.

(** Modelled from the spec: the predicted class is compared with the
    label (4.3), and a failed request is a miss (7). *)
Definition is_hit (ex : example) (o : reply) : bool :=
  match request_scores o with
  | Ok rows => bool_decide (predicted_classes rows = Some [label ex])
  | Raise _ => false
  end.

(** Modelled from the spec: the loop of [eval_serving_performance] from
    example [idx] on, with the hits so far. *)
Fixpoint eval_loop (idx : nat) (examples : list example) (replies : nat → reply)
    (hits : nat) : notebook nat :=
  match examples with
  | [] => mret hits
  | ex :: rest =>
      match request_scores (replies idx) with
      | Ok rows =>
          eval_loop (S idx) rest replies
            (if bool_decide (predicted_classes rows = Some [label ex])
             then S hits else hits)
      | Raise _ =>
          _ ← print (Line ("request failed for example " ++ pretty idx));
          eval_loop (S idx) rest replies hits
      end
  end.

(** Modelled from the spec: [eval_serving_performance] of
    [emnist_dl2prod.utils], which the notebook imports and calls in cell 36
    and whose body is missing.  The spec (4.3, 7) has it send one predict
    request per example, take the arg-max of the score vector as the
    predicted class, compare it with the label, and keep a running accuracy
    fraction; a failed request is caught, logged with the example index and
    counted as a miss, and the loop goes on.  The replies of the server are
    a parameter; the result is the number of hits and the number of
    examples evaluated.  The spec does not say what [n_print_examples]
    prints, and nothing is modelled for it. *)
Definition eval_serving_performance (n_examples n_print_examples : nat)
    (dataset : list example) (replies : nat → reply) : notebook (nat * nat) :=
  let examples := take n_examples dataset in
  hits ← eval_loop 0 examples replies 0;
  mret (hits, length examples).

(** The accuracy fraction, of one example or more. *)
Definition accuracy (r : nat * nat) : Q := (Z.of_nat r.1 # Pos.of_nat r.2).

(** Cell 36. *)
Definition cell_36 (test_set : list example) (replies : nat → reply) : notebook (nat * nat) :=
  eval_serving_performance 1000 10 test_set replies.

(** ** Scores and labels *)



(** ** What the notebook prints *)

(** The descriptors printed by cells 12 and 13. *)
Definition cell_12_output : TensorInfo :=
  {| name := "flattened_rescaled_img_28x28:0"; dtype := DT_FLOAT;
     tensor_shape := [1; 784] |}.

Definition cell_13_output : TensorInfo :=
  {| name := "Softmax:0"; dtype := DT_FLOAT; tensor_shape := [1; 62] |}.

(** The signatures printed by cells 16 and 19. *)
Definition cell_16_output : SignatureDef :=
  {| inputs := {[ "inputs" := cell_12_output ]};
     outputs := {[ "scores" := cell_13_output ]};
     method_name := "tensorflow/serving/classify" |}.

Definition cell_19_output : SignatureDef :=
  {| inputs := {[ "images" := cell_12_output ]};
     outputs := {[ "scores" := cell_13_output ]};
     method_name := "tensorflow/serving/predict" |}.

(** The file cell 21 writes, and the meta graph it holds. *)
Definition saved_model_pb : list string :=
  [".."; "models"; "tf_emnist"; "1"; "saved_model.pb"].

Definition exported_meta_graph (DEFAULT_SERVING_SIGNATURE_DEF_KEY : string) : MetaGraphDef :=
  {| tags := [SERVING];
     graph_def := predict_net_graph;
     signature_def :=
       signature_def_map DEFAULT_SERVING_SIGNATURE_DEF_KEY cell_19_output cell_16_output |}.

(** * Properties *)

(** ** Paths *)

Example sep_is_slash : String sep "" = "/".
Proof. reflexivity. Qed.

Example model_path_value : model_path = "../models/tf_emnist/1".
Proof. vm_compute. reflexivity. Qed.

Example components_export_path : components export_path = [".."; "models"; "tf_emnist"].
Proof. vm_compute. reflexivity. Qed.

Example components_model_path : components model_path = [".."; "models"; "tf_emnist"; "1"].
Proof. vm_compute. reflexivity. Qed.

(** ** The descriptors and signatures the notebook prints *)

(** Cells 12 and 13. *)
Lemma input_tensor_info_value : input_tensor_info = Ok cell_12_output.
Proof. reflexivity. Qed.

Lemma output_tensor_info_value : output_tensor_info = Ok cell_13_output.
Proof. reflexivity. Qed.

Section Builder.
Implicit Types (ins outs : gmap string TensorInfo) (i o : TensorInfo).

Lemma check_descriptors_ok role ins :
  map_Forall (λ _ ti, dtype_set ti) ins →
  map_Forall (λ _ ti, shape_nonempty ti) ins →
  check_descriptors role ins = Ok tt.
Proof.
  intros Hd Hs. unfold check_descriptors.
  destruct (decide _) as [_|[]]; [|done].
  destruct (decide _) as [_|[]]; done.
Qed.

Lemma check_descriptors_fails role ins :
  ¬ (map_Forall (λ _ ti, dtype_set ti) ins ∧
     map_Forall (λ _ ti, shape_nonempty ti) ins) →
  ∃ msg, check_descriptors role ins = Raise (ConfigurationError (role ++ msg))
         ∧ msg ≠ "".
Proof.
  intros Hn. unfold check_descriptors.
  destruct (decide _) as [Hd|_]; [|eauto].
  destruct (decide _) as [Hs|_]; [|eauto].
  destruct Hn; done.
Qed.

Lemma build_signature_def_ok ins outs m :
  map_Forall (λ _ ti, dtype_set ti ∧ shape_nonempty ti) ins →
  map_Forall (λ _ ti, dtype_set ti ∧ shape_nonempty ti) outs →
  build_signature_def ins outs m =
    Ok {| inputs := ins; outputs := outs; method_name := m |}.
Proof.
  intros Hi Ho. unfold build_signature_def.
  rewrite !check_descriptors_ok; [done| | | |];
    intros k ti Hk; first [apply (Hi k ti Hk) | apply (Ho k ti Hk)].
Qed.

Lemma build_signature_def_singletons kin kout i o m :
  dtype_set i → shape_nonempty i → dtype_set o → shape_nonempty o →
  build_signature_def {[ kin := i ]} {[ kout := o ]} m =
    Ok {| inputs := {[ kin := i ]}; outputs := {[ kout := o ]}; method_name := m |}.
Proof.
  intros. apply build_signature_def_ok; apply map_Forall_singleton; done.
Qed.

Lemma build_signature_def_raises ins outs m :
  ¬ (map_Forall (λ _ ti, dtype_set ti ∧ shape_nonempty ti) ins ∧
     map_Forall (λ _ ti, dtype_set ti ∧ shape_nonempty ti) outs) →
  ∃ msg, build_signature_def ins outs m = Raise (ConfigurationError msg) ∧ msg ≠ "".
Proof.
  intros Hn. unfold build_signature_def.
  destruct (decide (map_Forall (λ _ ti, dtype_set ti) ins ∧
                    map_Forall (λ _ ti, shape_nonempty ti) ins)) as [[Hd Hs]|Hi].
  - rewrite (check_descriptors_ok _ _ Hd Hs). simpl.
    destruct (check_descriptors_fails "outputs" outs) as (msg & -> & Hmsg).
    + intros [Hd' Hs']. apply Hn.
      split; intros k ti Hk; split;
        [by apply (Hd k)|by apply (Hs k)|by apply (Hd' k)|by apply (Hs' k)].
    + eexists; split; [done|]. done.
  - destruct (check_descriptors_fails "inputs" ins Hi) as (msg & -> & Hmsg).
    eexists; split; [done|]. done.
Qed.
End Builder.

(** ** The signature builder *)

(** C1: for input and output descriptors with a set dtype and a non-empty
    shape, under any role keys and method name, the signature builder
    returns a signature whose descriptors have the name, the dtype and the
    shape of the given ones, and whose method is the given one. *)
Theorem C1_signature_round_trip (kin kout : string) (i o : TensorInfo) (m : string) :
  dtype_set i → shape_nonempty i → dtype_set o → shape_nonempty o →
  ∃ sig,
    build_signature_def {[ kin := i ]} {[ kout := o ]} m = Ok sig ∧
    (∃ i', inputs sig !! kin = Some i' ∧
           name i' = name i ∧ dtype i' = dtype i ∧ tensor_shape i' = tensor_shape i) ∧
    (∃ o', outputs sig !! kout = Some o' ∧
           name o' = name o ∧ dtype o' = dtype o ∧ tensor_shape o' = tensor_shape o) ∧
    method_name sig = m.
Proof.
  intros Hdi Hsi Hdo Hso.
  eexists. split; [by apply build_signature_def_singletons|].
  cbn [inputs outputs method_name]. split; [|split; [|reflexivity]].
  - exists i. by rewrite lookup_singleton_eq.
  - exists o. by rewrite lookup_singleton_eq.
Qed.

(** The scenario of C1: input "x" of shape [1,784], output "y" of shape
    [1,62], method PREDICT, keys "images" and "scores". *)
Lemma C1_scenario :
  let x := {| name := "x"; dtype := DT_FLOAT; tensor_shape := [1; 784] |} in
  let y := {| name := "y"; dtype := DT_FLOAT; tensor_shape := [1; 62] |} in
  (dtype_set x ∧ shape_nonempty x ∧ dtype_set y ∧ shape_nonempty y) ∧
  ∃ sig,
    build_signature_def {[ "images" := x ]} {[ "scores" := y ]} PREDICT_METHOD_NAME
      = Ok sig ∧
    name <$> inputs sig !! "images" = Some "x" ∧
    tensor_shape <$> outputs sig !! "scores" = Some [1; 62] ∧
    method_name sig = PREDICT_METHOD_NAME.
Proof.
  intros x y.
  assert (Hx : dtype_set x ∧ shape_nonempty x) by (split; discriminate).
  assert (Hy : dtype_set y ∧ shape_nonempty y) by (split; discriminate).
  split; [tauto|].
  destruct (C1_signature_round_trip "images" "scores" x y PREDICT_METHOD_NAME
              (proj1 Hx) (proj2 Hx) (proj1 Hy) (proj2 Hy))
    as (sig & Hsig & (i' & Hi & Hn & _ & _) & (o' & Ho & _ & _ & Hs) & Hm).
  exists sig. split; [exact Hsig|].
  rewrite Hi, Ho. cbn [fmap option_fmap option_map]. rewrite Hn, Hs.
  split; [reflexivity|]. split; [reflexivity|exact Hm].
Defined.

(** C2: the classification signature of the notebook has the reserved
    role keys "inputs" and "scores" whatever the descriptors are, and a
    signature built for PREDICT has exactly the role keys the caller
    passes, "images" and "scores" in the notebook. *)
Theorem C2_role_keys (i o : TensorInfo) :
  dtype_set i → shape_nonempty i → dtype_set o → shape_nonempty o →
  (∃ sig, classification_signature i o = Ok sig ∧
          method_name sig = CLASSIFY_METHOD_NAME ∧
          dom (inputs sig) = {[ CLASSIFY_INPUTS ]} ∧ CLASSIFY_INPUTS = "inputs" ∧
          dom (outputs sig) = {[ CLASSIFY_OUTPUT_SCORES ]} ∧
          CLASSIFY_OUTPUT_SCORES = "scores") ∧
  (∀ kin kout : string, ∃ sig,
      build_signature_def {[ kin := i ]} {[ kout := o ]} PREDICT_METHOD_NAME = Ok sig ∧
      dom (inputs sig) = {[ kin ]} ∧ dom (outputs sig) = {[ kout ]} ∧
      method_name sig = PREDICT_METHOD_NAME) ∧
  (∃ sig, prediction_signature i o = Ok sig ∧
          method_name sig = PREDICT_METHOD_NAME ∧
          dom (inputs sig) = {[ "images" ]} ∧ dom (outputs sig) = {[ "scores" ]}).
Proof.
  intros Hdi Hsi Hdo Hso. repeat split.
  - eexists. split; [by apply build_signature_def_singletons|].
    cbn [inputs outputs method_name]. by rewrite !dom_singleton_L.
  - intros kin kout. eexists. split; [by apply build_signature_def_singletons|].
    cbn [inputs outputs method_name]. by rewrite !dom_singleton_L.
  - eexists. split; [by apply build_signature_def_singletons|].
    cbn [inputs outputs method_name]. by rewrite !dom_singleton_L.
Qed.

Lemma C2_witness :
  let i := {| name := "flattened_rescaled_img_28x28:0"; dtype := DT_FLOAT;
              tensor_shape := [1; 784] |} in
  let o := {| name := "Softmax:0"; dtype := DT_FLOAT; tensor_shape := [1; 62] |} in
  ∃ sig, classification_signature i o = Ok sig ∧
         dom (inputs sig) = {[ "inputs" ]} ∧ dom (outputs sig) = {[ "scores" ]}.
Proof.
  intros i o.
  assert (Hi : dtype_set i ∧ shape_nonempty i) by (split; discriminate).
  assert (Ho : dtype_set o ∧ shape_nonempty o) by (split; discriminate).
  destruct (C2_role_keys i o (proj1 Hi) (proj2 Hi) (proj1 Ho) (proj2 Ho))
    as [(sig & Hsig & _ & Hin & _ & Hout & _) _].
  exists sig. split; [exact Hsig|]. split; [exact Hin|exact Hout].
Defined.

(** C3: when the dtype of either descriptor is unset or the shape of
    either descriptor has no dimension, the signature builder raises a
    configuration error with a message, and returns no signature. *)
Theorem C3_invalid_descriptor_fails (kin kout : string) (i o : TensorInfo) (m : string) :
  dtype i = DT_INVALID ∨ tensor_shape i = [] ∨
  dtype o = DT_INVALID ∨ tensor_shape o = [] →
  (∃ msg, build_signature_def {[ kin := i ]} {[ kout := o ]} m
            = Raise (ConfigurationError msg) ∧ msg ≠ "") ∧
  ∀ sig, build_signature_def {[ kin := i ]} {[ kout := o ]} m ≠ Ok sig.
Proof.
  intros Hbad.
  destruct (build_signature_def_raises {[ kin := i ]} {[ kout := o ]} m)
    as (msg & Hmsg & Hne).
  - rewrite !map_Forall_singleton. unfold dtype_set, shape_nonempty.
    intros [[? ?] [? ?]]. destruct Hbad as [?|[?|[?|?]]]; done.
  - split; [by exists msg|]. intros sig. by rewrite Hmsg.
Qed.

Lemma C3_witness :
  let unset := {| name := "x"; dtype := DT_INVALID; tensor_shape := [1; 784] |} in
  let scalar := {| name := "y"; dtype := DT_FLOAT; tensor_shape := [] |} in
  is_ok (build_signature_def {[ "images" := unset ]} {[ "scores" := scalar ]}
           PREDICT_METHOD_NAME) = false.
Proof.
  intros unset scalar.
  destruct (C3_invalid_descriptor_fails "images" "scores" unset scalar
              PREDICT_METHOD_NAME (or_introl eq_refl)) as [(msg & -> & _) _].
  reflexivity.
Defined.

(** ** The file system *)

(** Unfolds the plumbing of a cell applied to a world. *)
Ltac run_cell :=
  unfold mbind, notebook_bind, mret, notebook_ret, get_fs, set_fs, raise, lift, print.

Section FileSystem.
Implicit Types (n : node) (p q : list string).

Lemma lookup_path_app n p q :
  lookup_path n (p ++ q) = lookup_path n p ≫= λ n', lookup_path n' q.
Proof.
  revert n. induction p as [|c p IH]; intros n; [done|].
  destruct n as [?|es]; [done|]. cbn [app lookup_path].
  destruct (es !! c) as [n'|]; [apply IH|done].
Qed.

Lemma lookup_path_file content c p : lookup_path (File content) (c :: p) = None.
Proof. done. Qed.

(** Nothing is left at or below a removed path. *)
Lemma lookup_remove_path n p q :
  p ≠ [] → lookup_path (remove_path n p) (p ++ q) = None.
Proof.
  revert n. induction p as [|c p IH]; intros n Hp; [done|].
  destruct n as [content|es].
  { by destruct p. }
  destruct p as [|c' p].
  - cbn [remove_path app lookup_path]. by rewrite lookup_delete_eq.
  - cbn [remove_path]. rewrite <- app_comm_cons. cbn [lookup_path].
    rewrite lookup_alter_eq. destruct (es !! c) as [n'|]; [|done].
    cbn [fmap option_fmap option_map]. by apply IH.
Qed.

(** What was stored at a path is found there. *)
Lemma lookup_put_path n p new n' :
  put_path n p new = Some n' → lookup_path n' p = Some new.
Proof.
  revert n n'. induction p as [|c p IH]; intros n n' Hput.
  - cbn in Hput. by simplify_eq.
  - destruct n as [?|es]; [done|]. cbn [put_path] in Hput.
    destruct (put_path _ p new) as [n''|] eqn:Hsub; [|done].
    simplify_eq. cbn [lookup_path]. rewrite lookup_insert_eq. by eapply IH.
Qed.

Lemma os_path_exists_export_path n :
  os_path_exists n export_path =
    match lookup_path n [".."; "models"; "tf_emnist"] with
    | Some (Dir _) => true
    | _ => false
    end.
Proof.
  unfold os_path_exists. rewrite components_export_path.
  replace (String.eqb export_path "") with false by reflexivity.
  replace (endswith_sep export_path) with true by reflexivity.
  by destruct (lookup_path n _) as [[]|].
Qed.

Lemma os_path_exists_model_path n :
  os_path_exists n model_path =
    bool_decide (is_Some (lookup_path n ([".."; "models"; "tf_emnist"] ++ ["1"]))).
Proof.
  unfold os_path_exists. rewrite components_model_path.
  replace (String.eqb model_path "") with false by reflexivity.
  replace (endswith_sep model_path) with false by reflexivity.
  cbn [app]. destruct (lookup_path n _) as [[]|]; cbn [negb].
  - by rewrite bool_decide_eq_true_2.
  - by rewrite bool_decide_eq_true_2.
  - rewrite bool_decide_eq_false_2; [done|]. by intros [? ?].
Qed.

(** The first three lines of cell 6 in any world. *)
Lemma clear_export_path_spec (w : World) :
  ∃ w', clear_export_path w = (w', Ok tt) ∧ stdout w' = stdout w ∧
        (∀ c q, lookup_path (fs w') ([".."; "models"; "tf_emnist"] ++ c :: q) = None) ∧
        os_path_exists (fs w') export_path = false ∧
        fs w' = (if os_path_exists (fs w) export_path
                 then remove_path (fs w) [".."; "models"; "tf_emnist"] else fs w).
Proof.
  unfold clear_export_path, shutil_rmtree. run_cell.
  destruct (os_path_exists (fs w) export_path) eqn:Hex.
  - rewrite os_path_exists_export_path in Hex.
    rewrite components_export_path.
    destruct (lookup_path (fs w) _) as [[?|es]|] eqn:Hl; [done| |done].
    eexists. split; [reflexivity|]. cbn [fs stdout].
    split; [done|]. split; [|split; [|done]].
    + intros c q. by apply lookup_remove_path.
    + rewrite os_path_exists_export_path.
      rewrite <- (app_nil_r [".."; "models"; "tf_emnist"]) at 2.
      by rewrite lookup_remove_path.
  - exists w. split; [reflexivity|]. split; [done|]. split; [|done].
    intros c q. rewrite os_path_exists_export_path in Hex.
    rewrite lookup_path_app.
    destruct (lookup_path (fs w) _) as [[?|es]|]; done.
Qed.
End FileSystem.

(** ** The export *)

Section BundleExport.
Variable DEFAULT_SERVING_SIGNATURE_DEF_KEY : string.
Abbreviation DEFAULT := DEFAULT_SERVING_SIGNATURE_DEF_KEY.

Lemma cell_12_output_valid : dtype_set cell_12_output ∧ shape_nonempty cell_12_output.
Proof. split; discriminate. Qed.

Lemma cell_13_output_valid : dtype_set cell_13_output ∧ shape_nonempty cell_13_output.
Proof. split; discriminate. Qed.

(** Cells 16 and 19. *)
Lemma classification_signature_value :
  classification_signature cell_12_output cell_13_output = Ok cell_16_output.
Proof.
  apply build_signature_def_singletons;
    apply cell_12_output_valid || apply cell_13_output_valid.
Qed.

Lemma prediction_signature_value :
  prediction_signature cell_12_output cell_13_output = Ok cell_19_output.
Proof.
  apply build_signature_def_singletons;
    apply cell_12_output_valid || apply cell_13_output_valid.
Qed.

Lemma check_signature_singletons kin kout i o m :
  dtype_set i ∧ shape_nonempty i → dtype_set o ∧ shape_nonempty o →
  check_signature {| inputs := {[ kin := i ]}; outputs := {[ kout := o ]};
                     method_name := m |} = Ok tt.
Proof.
  intros [? ?] [? ?]. unfold check_signature. cbn [inputs outputs].
  rewrite !check_descriptors_ok; [done|..]; by apply map_Forall_singleton.
Qed.

Lemma validate_signature_def_map_ok (pred cls : SignatureDef) :
  check_signature pred = Ok tt → check_signature cls = Ok tt →
  validate_signature_def_map DEFAULT (signature_def_map DEFAULT pred cls) = Ok tt.
Proof.
  intros Hp Hc. unfold validate_signature_def_map, signature_def_map.
  destruct (decide _) as [_|[]]; [|by rewrite lookup_insert_eq].
  destruct (decide _) as [_|[]]; [done|].
  apply map_Forall_insert_2; [by rewrite Hc|].
  apply map_Forall_insert_2; [by rewrite Hp|]. apply map_Forall_empty.
Qed.

Lemma validate_signature_def_map_no_default (m : gmap string SignatureDef) :
  m !! DEFAULT = None →
  validate_signature_def_map DEFAULT m =
    Raise (ConfigurationError "signature map: no entry under the default serving key").
Proof.
  intros Hm. unfold validate_signature_def_map.
  destruct (decide _) as [[? Hs]|_]; [congruence|done].
Qed.

(** Cell 6 never fails: the builder is created for [model_path]. *)
Lemma cell_6_spec (w : World) :
  ∃ w', clear_export_path w = (w', Ok tt) ∧
        cell_6 w = (w', Ok {| export_dir := model_path; meta_graphs := [] |}).
Proof.
  destruct (clear_export_path_spec w) as (w' & Hclear & _ & Hgone & _).
  exists w'. split; [done|].
  unfold cell_6. run_cell. rewrite Hclear.
  unfold SavedModelBuilder. run_cell.
  rewrite os_path_exists_model_path, Hgone.
  rewrite bool_decide_eq_false_2; [done|]. by intros [? ?].
Qed.

(** Cell 21 either writes the bundle file or stops on a file that is in
    the way of the version directory. *)
Lemma cell_21_spec (w : World) :
  cell_21 DEFAULT {| export_dir := model_path; meta_graphs := [] |}
      cell_19_output cell_16_output w =
    match put_path (fs w) saved_model_pb
            (File (SavedModelPb [exported_meta_graph DEFAULT])) with
    | Some n' => ({| fs := n'; stdout := stdout w ++ [Line "Done exporting!"] |}, Ok tt)
    | None => (w, Raise (NotADirectoryError "../models/tf_emnist/1/saved_model.pb"))
    end.
Proof.
  unfold cell_21, add_meta_graph_and_variables. run_cell.
  rewrite validate_signature_def_map_ok;
    [|apply check_signature_singletons;
        apply cell_12_output_valid || apply cell_13_output_valid..].
  unfold save. run_cell. cbn [export_dir meta_graphs app].
  replace (components (os_path_join model_path ["saved_model.pb"]))
    with saved_model_pb by (vm_compute; reflexivity).
  replace (os_path_join model_path ["saved_model.pb"])
    with "../models/tf_emnist/1/saved_model.pb" by (vm_compute; reflexivity).
  fold (exported_meta_graph DEFAULT).
  by destruct (put_path _ _ _).
Qed.

(** The whole export is cell 21 run after the export path is cleared. *)
Lemma export_flow_spec (w : World) :
  ∃ w', clear_export_path w = (w', Ok tt) ∧
        export_flow DEFAULT w =
          cell_21 DEFAULT {| export_dir := model_path; meta_graphs := [] |}
            cell_19_output cell_16_output w'.
Proof.
  destruct (cell_6_spec w) as (w' & Hclear & Hcell).
  exists w'. split; [done|].
  unfold export_flow. run_cell. rewrite Hcell.
  rewrite input_tensor_info_value, output_tensor_info_value.
  by rewrite classification_signature_value, prediction_signature_value.
Qed.
End BundleExport.

(** C4: for every directory and version, when the version directory
    exists at the time of the export, the exporter raises the "already
    exists" error and the world, with every file in it, is what it was. *)
Theorem C4_existing_version_untouched (DEFAULT_SERVING_SIGNATURE_DEF_KEY : string)
    (directory : string) (version : Z) (sess : list Tensor) (tags : list string)
    (m : gmap string SignatureDef) (w : World) :
  os_path_exists (fs w) (os_path_join directory [pretty version]) = true →
  export_bundle DEFAULT_SERVING_SIGNATURE_DEF_KEY directory version sess tags m w
    = (w, Raise (AlreadyExists (os_path_join directory [pretty version]))).
Proof.
  intros Hex. unfold export_bundle, SavedModelBuilder. run_cell. by rewrite Hex.
Qed.

Lemma C4_witness :
  let old := Dir {[ "saved_model.pb" := File (RawBytes "previous export") ]} in
  let w := {| fs := Dir {[ "bundles" := Dir {[ "3" := old ]} ]}; stdout := [] |} in
  let m := signature_def_map "serving_default" cell_19_output cell_16_output in
  let out := export_bundle "serving_default" "bundles" 3 predict_net_graph [SERVING] m w in
  out.2 = Raise (AlreadyExists "bundles/3") ∧
  lookup_path (fs out.1) ["bundles"; "3"] = Some old.
Proof.
  intros old w m out. unfold out.
  rewrite (C4_existing_version_untouched "serving_default" "bundles" 3
             predict_net_graph [SERVING] m w);
    [split; vm_compute; reflexivity | vm_compute; reflexivity].
Defined.

(** C5: a signature map without an entry under the default serving key
    makes the export fail with nothing written: the world is what it was,
    and the error is the configuration error unless the version directory
    is in the way first.  The notebook's own call,
    [add_meta_graph_and_variables], raises the configuration error and
    writes nothing. *)
Theorem C5_missing_default_key_writes_nothing (DEFAULT_SERVING_SIGNATURE_DEF_KEY : string)
    (directory : string) (version : Z) (sess : list Tensor) (tags : list string)
    (m : gmap string SignatureDef) (w : World) :
  m !! DEFAULT_SERVING_SIGNATURE_DEF_KEY = None →
  (∃ e, export_bundle DEFAULT_SERVING_SIGNATURE_DEF_KEY directory version sess tags m w
          = (w, Raise e) ∧
        (os_path_exists (fs w) (os_path_join directory [pretty version]) = false →
         ∃ msg, e = ConfigurationError msg ∧ msg ≠ "")) ∧
  ∀ b, ∃ msg,
    add_meta_graph_and_variables DEFAULT_SERVING_SIGNATURE_DEF_KEY b sess tags m w
      = (w, Raise (ConfigurationError msg)) ∧ msg ≠ "".
Proof.
  intros Hm. split.
  - unfold export_bundle, SavedModelBuilder, add_meta_graph_and_variables. run_cell.
    rewrite (validate_signature_def_map_no_default _ _ Hm).
    destruct (os_path_exists _ _).
    + eexists. split; [reflexivity|done].
    + eexists. split; [reflexivity|]. intros _. eexists. split; [reflexivity|done].
  - intros b. unfold add_meta_graph_and_variables. run_cell.
    rewrite (validate_signature_def_map_no_default _ _ Hm).
    eexists. split; [reflexivity|done].
Qed.

Lemma C5_witness :
  let m : gmap string SignatureDef := {[ "predict_images" := cell_19_output ]} in
  let out := export_bundle "serving_default" "../models/tf_emnist" 1
               predict_net_graph [SERVING] m empty_world in
  out.1 = empty_world ∧ is_ok out.2 = false.
Proof.
  intros m out.
  destruct (C5_missing_default_key_writes_nothing "serving_default"
              "../models/tf_emnist" 1 predict_net_graph [SERVING] m empty_world)
    as [(e & He & _) _]; [vm_compute; reflexivity|].
  unfold out. rewrite He. split; reflexivity.
Defined.

(** C10: in any world, cell 6 leaves nothing at or below the export path
    when that path was a directory: every version directory is gone, not
    only version 1.  The version is the constant 1 and the builder is
    created for "../models/tf_emnist/1", which never exists at that point,
    so neither cell 6 nor the export as a whole raises the "already exists"
    error. *)
Theorem C10_export_path_cleared (DEFAULT_SERVING_SIGNATURE_DEF_KEY : string) (w : World) :
  model_version = 1 ∧ model_path = "../models/tf_emnist/1" ∧
  components model_path = (components export_path ++ [pretty model_version])%list ∧
  ∃ w',
    clear_export_path w = (w', Ok tt) ∧
    fs w' = (if os_path_exists (fs w) export_path
             then remove_path (fs w) (components export_path) else fs w) ∧
    os_path_exists (fs w') export_path = false ∧
    (∀ (v : Z) q, lookup_path (fs w') (components export_path ++ pretty v :: q)%list = None) ∧
    os_path_exists (fs w') model_path = false ∧
    cell_6 w = (w', Ok {| export_dir := model_path; meta_graphs := [] |}) ∧
    ∀ p, (export_flow DEFAULT_SERVING_SIGNATURE_DEF_KEY w).2 ≠ Raise (AlreadyExists p).
Proof.
  split; [reflexivity|]. split; [vm_compute; reflexivity|].
  split; [vm_compute; reflexivity|].
  destruct (clear_export_path_spec w) as (w' & Hclear & _ & Hgone & Hex & Hfs).
  destruct (cell_6_spec w) as (w1 & Hclear1 & Hcell).
  destruct (export_flow_spec DEFAULT_SERVING_SIGNATURE_DEF_KEY w)
    as (w2 & Hclear2 & Hflow).
  assert (w1 = w') as -> by congruence. assert (w2 = w') as -> by congruence.
  exists w'. rewrite components_export_path.
  split; [done|]. split; [done|]. split; [done|].
  split; [intros v q; apply Hgone|].
  split.
  { rewrite os_path_exists_model_path, Hgone.
    rewrite bool_decide_eq_false_2; [done|]. by intros [? ?]. }
  split; [done|].
  intros p. rewrite Hflow, cell_21_spec. by destruct (put_path _ _ _).
Qed.

Lemma put_path_fresh (p : list string) (new : node) :
  is_Some (put_path (Dir ∅) p new).
Proof.
  induction p as [|c p IH]; [by eexists|].
  cbn [put_path]. rewrite lookup_empty. cbn [default].
  destruct IH as [n' ->]. by eexists.
Qed.

Lemma clear_export_path_empty_world : clear_export_path empty_world = (empty_world, Ok tt).
Proof. vm_compute. reflexivity. Qed.

(** C9: with a default serving key other than 'predict_images', the
    signature map of cell 21 has exactly two entries, the classification
    signature under the default key and the prediction signature under
    'predict_images'.  Both signatures are built from the descriptors of
    cell 11, so both carry the input descriptor
    ('flattened_rescaled_img_28x28:0', float, [1,784]) and the output
    descriptor ('Softmax:0', float, [1,62]); they differ in the input role
    key and in the method name.  An export that succeeds stores this map
    in the bundle file, and the export into an empty world succeeds. *)
Theorem C9_signature_map (DEFAULT_SERVING_SIGNATURE_DEF_KEY : string) :
  DEFAULT_SERVING_SIGNATURE_DEF_KEY ≠ "predict_images" →
  let m := signature_def_map DEFAULT_SERVING_SIGNATURE_DEF_KEY
             cell_19_output cell_16_output in
  (input_tensor_info = Ok cell_12_output ∧ output_tensor_info = Ok cell_13_output ∧
   classification_signature cell_12_output cell_13_output = Ok cell_16_output ∧
   prediction_signature cell_12_output cell_13_output = Ok cell_19_output) ∧
  (dom m = {[ DEFAULT_SERVING_SIGNATURE_DEF_KEY; "predict_images" ]} ∧ size m = 2%nat ∧
   m !! DEFAULT_SERVING_SIGNATURE_DEF_KEY = Some cell_16_output ∧
   m !! "predict_images" = Some cell_19_output) ∧
  (inputs cell_16_output = {[ CLASSIFY_INPUTS := cell_12_output ]} ∧
   inputs cell_19_output = {[ "images" := cell_12_output ]} ∧
   outputs cell_16_output = {[ CLASSIFY_OUTPUT_SCORES := cell_13_output ]} ∧
   outputs cell_19_output = {[ "scores" := cell_13_output ]} ∧
   method_name cell_16_output = CLASSIFY_METHOD_NAME ∧
   method_name cell_19_output = PREDICT_METHOD_NAME) ∧
  ((map_to_list (inputs cell_16_output)).*2 = (map_to_list (inputs cell_19_output)).*2 ∧
   (map_to_list (outputs cell_16_output)).*2 = (map_to_list (outputs cell_19_output)).*2) ∧
  (cell_12_output = build_tensor_info
                      (mkTensor "flattened_rescaled_img_28x28:0" [1; 784] float32) ∧
   cell_13_output = build_tensor_info (mkTensor "Softmax:0" [1; 62] float32)) ∧
  (∀ w w', export_flow DEFAULT_SERVING_SIGNATURE_DEF_KEY w = (w', Ok tt) →
     ∃ mg, lookup_path (fs w') saved_model_pb = Some (File (SavedModelPb [mg])) ∧
           signature_def mg = m) ∧
  (export_flow DEFAULT_SERVING_SIGNATURE_DEF_KEY empty_world).2 = Ok tt.
Proof.
  intros Hne m.
  split.
  { split; [apply input_tensor_info_value|]. split; [apply output_tensor_info_value|].
    split; [apply classification_signature_value|apply prediction_signature_value]. }
  split.
  { unfold m, signature_def_map. split; [|split; [|split]].
    - rewrite !dom_insert_L, dom_empty_L. set_solver.
    - rewrite map_size_insert_None; [|by rewrite lookup_insert_ne].
      by rewrite map_size_insert_None, map_size_empty.
    - by rewrite lookup_insert_eq.
    - rewrite lookup_insert_ne; [|done]. by rewrite lookup_insert_eq. }
  split; [done|].
  split.
  { unfold cell_16_output, cell_19_output. cbn [inputs outputs].
    by rewrite !map_to_list_singleton. }
  split; [done|].
  split.
  - intros w w' Hflow.
    destruct (export_flow_spec DEFAULT_SERVING_SIGNATURE_DEF_KEY w) as (w1 & _ & Hw1).
    rewrite Hw1, cell_21_spec in Hflow.
    destruct (put_path _ _ _) as [n'|] eqn:Hput; [|done].
    simplify_eq. exists (exported_meta_graph DEFAULT_SERVING_SIGNATURE_DEF_KEY).
    split; [|done]. cbn [fs]. by eapply lookup_put_path.
  - destruct (export_flow_spec DEFAULT_SERVING_SIGNATURE_DEF_KEY empty_world)
      as (w1 & Hw1 & ->).
    rewrite clear_export_path_empty_world in Hw1. simplify_eq.
    rewrite cell_21_spec. cbn [fs empty_world].
    by destruct (put_path_fresh saved_model_pb
                   (File (SavedModelPb
                      [exported_meta_graph DEFAULT_SERVING_SIGNATURE_DEF_KEY]))) as [n' ->].
Qed.

Lemma C9_witness :
  let m := signature_def_map "serving_default" cell_19_output cell_16_output in
  "serving_default" ≠ "predict_images" ∧ size m = 2%nat ∧
  m !! "serving_default" = Some cell_16_output ∧
  m !! "predict_images" = Some cell_19_output.
Proof.
  intros m.
  assert (Hne : "serving_default" ≠ "predict_images") by discriminate.
  destruct (C9_signature_map "serving_default" Hne)
    as (_ & (_ & Hsize & Hdef & Hpred) & _).
  split; [exact Hne|]. split; [exact Hsize|]. split; [exact Hdef|exact Hpred].
Defined.

(** ** The arg-max *)

Section Argmax.
Local Open Scope list_scope.
Implicit Types (l pre : list Q) (x best : Q) (i k : nat).




End Argmax.

(** ** The serving client *)

Section Client.
Local Open Scope list_scope.
Implicit Types (rows : list (list Q)) (row : list Q) (o : reply) (w : World).

Lemma as_row_numbers row : as_row (JArr (JNum <$> row)) = Some row.
Proof. cbn [as_row]. by apply mapM_fmap_Some. Qed.

Lemma as_rows_json_rows rows : as_rows (json_rows rows) = Some rows.
Proof. unfold json_rows. cbn [as_rows]. apply mapM_fmap_Some, as_row_numbers. Qed.

Lemma getitem_singleton key v : getitem (JObj [(key, v)]) key = Ok v.
Proof. unfold getitem. cbn [rev app List.find fst snd]. by rewrite String.eqb_refl. Qed.

(** [np.argmax] of a single score vector is the arg-max of that vector. *)
Lemma np_argmax_single_row row k :
  argmax row = Some k → np_argmax (json_rows [row]) = Ok k.
Proof.
  intros Hk. unfold np_argmax. rewrite as_rows_json_rows.
  cbn [rectangular forallb concat]. rewrite app_nil_r. by rewrite Hk.
Qed.

Lemma cell_29_replied code v w :
  cell_29 (Replied {| status_code := code; body := Some v |}) w =
    ({| fs := fs w;
        stdout := (stdout w ++ [Line ("HTTP Response Status Code: " ++ pretty code)%string])
                    ++ [Value v] |}, Ok tt).
Proof. reflexivity. Qed.

Lemma cell_29_undecodable code w :
  cell_29 (Replied {| status_code := code; body := None |}) w =
    ({| fs := fs w;
        stdout := stdout w ++ [Line ("HTTP Response Status Code: " ++ pretty code)%string] |},
     Raise JSONDecodeError).
Proof. reflexivity. Qed.

Lemma eval_loop_step idx (ex : example) (rest : list example) replies hits w :
  eval_loop idx (ex :: rest) replies hits w =
    if is_ok (request_scores (replies idx))
    then eval_loop (S idx) rest replies
           (if is_hit ex (replies idx) then S hits else hits) w
    else eval_loop (S idx) rest replies hits
           {| fs := fs w;
              stdout := stdout w ++
                [Line ("request failed for example " ++ pretty idx)%string] |}.
Proof.
  cbn [eval_loop]. unfold is_hit.
  destruct (request_scores (replies idx)); cbn [is_ok]; reflexivity.
Qed.

Lemma eval_loop_total (examples : list example) idx replies hits w :
  ∃ w' h, eval_loop idx examples replies hits w = (w', Ok h) ∧ fs w' = fs w ∧
          (hits ≤ h ≤ hits + length examples)%nat.
Proof.
  revert idx hits w. induction examples as [|ex rest IH]; intros idx hits w.
  - exists w, hits. cbn [eval_loop length]. split; [done|]. split; [done|lia].
  - rewrite eval_loop_step. cbn [length]. destruct (is_ok _).
    + destruct (IH (S idx) (if is_hit ex (replies idx) then S hits else hits) w)
        as (w' & h & -> & Hfs & Hh).
      exists w', h. split; [done|]. split; [done|]. destruct (is_hit _ _); lia.
    + destruct (IH (S idx) hits
                  {| fs := fs w;
                     stdout := stdout w ++
                       [Line ("request failed for example " ++ pretty idx)%string] |})
        as (w' & h & -> & Hfs & Hh).
      exists w', h. split; [done|]. split; [done|]. lia.
Qed.
End Client.

(** C6, as the claim states it, fails: with the server down the status
    cell raises [ConnectionError] to its caller, and an error reply makes
    the predict cell raise [KeyError]. *)
Lemma C6_counterexample :
  cell_29 Refused empty_world = (empty_world, Raise ConnectionError) ∧
  (predict_request
     (Replied {| status_code := 404;
                 body := Some (JObj [("error", JStr "Not found")]) |})
     empty_world).2 = Raise (KeyError "predictions").
Proof. split; reflexivity. Qed.

(** C6, amended: the status and predict cells catch nothing.  A reply
    whose body decodes is printed whatever its status code, and the predict
    cell goes through when the body has a non-empty score vector under
    'predictions'; a refused connection, a timeout and a body that does not
    decode raise out of the cell, and so does, in the predict cell, a body
    without 'predictions'.  In the evaluation loop a refused connection, a
    timeout, a status outside 2xx and an undecodable body are failures of
    the request; a failed request is logged with the example index, adds no
    hit, and the loop goes on with the next example; the evaluation always
    returns, having counted every example. *)
Theorem C6_client_failures (w : World) :
  ((∀ code v, cell_29 (Replied {| status_code := code; body := Some v |}) w =
      ({| fs := fs w;
          stdout := (stdout w ++ [Line ("HTTP Response Status Code: " ++ pretty code)])
                      ++ [Value v] |}, Ok tt)) ∧
   cell_29 Refused w = (w, Raise ConnectionError) ∧
   cell_29 TimedOut w = (w, Raise ConnectionError) ∧
   (∀ code, (cell_29 (Replied {| status_code := code; body := None |}) w).2
              = Raise JSONDecodeError)) ∧
  (predict_request Refused w = (w, Raise ConnectionError) ∧
   predict_request TimedOut w = (w, Raise ConnectionError) ∧
   (∀ code, (predict_request (Replied {| status_code := code; body := None |}) w).2
              = Raise JSONDecodeError) ∧
   (∀ code msg,
      (predict_request
         (Replied {| status_code := code; body := Some (JObj [("error", JStr msg)]) |})
         w).2 = Raise (KeyError "predictions")) ∧
   (∀ code x row,
      (predict_request
         (Replied {| status_code := code;
                     body := Some (JObj [("predictions", json_rows [x :: row])]) |})
         w).2 = Ok tt)) ∧
  (is_ok (request_scores Refused) = false ∧
   is_ok (request_scores TimedOut) = false ∧
   (∀ code, is_ok (request_scores (Replied {| status_code := code; body := None |}))
              = false) ∧
   (∀ code b, is_ok (request_scores (Replied {| status_code := code; body := b |}))
                && negb (Z.leb 200 code && Z.ltb code 300) = false) ∧
   (∀ ex o, is_hit ex o && negb (is_ok (request_scores o)) = false)) ∧
  (∀ idx ex rest replies hits,
     eval_loop idx (ex :: rest) replies hits w =
       if is_ok (request_scores (replies idx))
       then eval_loop (S idx) rest replies
              (if is_hit ex (replies idx) then S hits else hits) w
       else eval_loop (S idx) rest replies hits
              {| fs := fs w;
                 stdout := stdout w ++
                   [Line ("request failed for example " ++ pretty idx)] |}) ∧
  (∀ n_examples n_print_examples dataset replies,
     ∃ w' hits,
       eval_serving_performance n_examples n_print_examples dataset replies w
         = (w', Ok (hits, length (take n_examples dataset))) ∧
       fs w' = fs w ∧ (hits ≤ length (take n_examples dataset))%nat).
Proof.
  split; [|split; [|split; [|split]]].
  - split; [intros; apply cell_29_replied|].
    split; [reflexivity|]. split; [reflexivity|]. intros code. reflexivity.
  - split; [reflexivity|]. split; [reflexivity|].
    split; [intros code; reflexivity|]. split; [intros code msg; reflexivity|].
    intros code x row.
    unfold predict_request, cell_33, cell_34, requests_send, r_json. run_cell.
    cbn [body status_code]. rewrite getitem_singleton.
    by rewrite (np_argmax_single_row (x :: row) (argmax_from 0 x 1 row)).
  - split; [reflexivity|]. split; [reflexivity|].
    split.
    { intros code. unfold request_scores, r_json. cbn [status_code body].
      by destruct (Z.leb 200 code && Z.ltb code 300). }
    split.
    { intros code b. unfold request_scores. cbn [status_code].
      destruct (Z.leb 200 code && Z.ltb code 300); [apply andb_false_r|reflexivity]. }
    intros ex o. unfold is_hit.
    destruct (request_scores o); [apply andb_false_r|reflexivity].
  - intros. apply eval_loop_step.
  - intros n_examples n_print_examples dataset replies.
    unfold eval_serving_performance.
    destruct (eval_loop_total (take n_examples dataset) 0 replies 0 w)
      as (w' & h & Hloop & Hfs & Hh).
    exists w', h. run_cell. rewrite Hloop. split; [done|]. split; [done|lia].
Qed.

(** ** The class index of cell 34 *)

Section FlatArgmax.
Local Open Scope list_scope.
Local Open Scope nat_scope.
Implicit Types (rows : list (list Q)) (row : list Q).



Lemma rectangular_uniform rows n :
  Forall (λ row, length row = n) rows → rectangular rows = true.
Proof.
  intros Hrows. destruct Hrows as [|row rows Hrow Hrows]; [done|].
  cbn [rectangular]. apply Is_true_eq_true, forallb_True.
  eapply Forall_impl; [done|]. intros row' Hrow'. cbn beta in Hrow'.
  rewrite Hrow, Hrow'. by rewrite Nat.eqb_refl.
Qed.


End FlatArgmax.





(** * Further properties of the notebook *)

(** ** Clearing the export path *)

Section Clearing.
Local Open Scope list_scope.
Implicit Types (n : node) (p q cs : list string).

(** Removing a path changes nothing at a path that neither lies below it
    nor leads to it. *)
Lemma lookup_remove_path_apart n cs p :
  ¬ cs `prefix_of` p → ¬ p `prefix_of` cs →
  lookup_path (remove_path n cs) p = lookup_path n p.
Proof.
  revert n p. induction cs as [|c cs IH]; intros n p Hcs Hp.
  { destruct Hcs. apply prefix_nil. }
  destruct p as [|d p]; [destruct Hp; apply prefix_nil|].
  destruct n as [content|es]; [by destruct cs|].
  destruct cs as [|c' cs].
  - cbn [remove_path lookup_path]. rewrite lookup_delete_ne; [done|].
    intros ->. apply Hcs, prefix_cons, prefix_nil.
  - cbn [remove_path lookup_path]. destruct (decide (c = d)) as [->|Hne].
    + rewrite lookup_alter_eq. destruct (es !! d) as [n'|]; [|done].
      cbn [fmap option_fmap option_map]. apply IH.
      * intros H. by apply Hcs, prefix_cons.
      * intros H. by apply Hp, prefix_cons.
    + by rewrite lookup_alter_ne.
Qed.

End Clearing.

(** X1: the first three lines of cell 6 change nothing at a path that
    neither lies at or below the export path nor leads to it, and print
    nothing: what else is kept under [../models] stays. *)
Theorem clear_export_path_frame (w : World) (p : list string) :
  ¬ components export_path `prefix_of` p →
  ¬ p `prefix_of` components export_path →
  ∃ w', clear_export_path w = (w', Ok tt) ∧
        lookup_path (fs w') p = lookup_path (fs w) p ∧
        stdout w' = stdout w.
Proof.
  intros Hbelow Habove.
  destruct (clear_export_path_spec w) as (w' & Hclear & Hout & _ & _ & Hfs).
  exists w'. split; [done|]. split; [|done]. rewrite Hfs.
  destruct (os_path_exists (fs w) export_path); [|done].
  rewrite components_export_path in Hbelow, Habove.
  by apply lookup_remove_path_apart.
Qed.

Lemma clear_export_path_frame_witness :
  let onnx := File (RawBytes "onnx model") in
  let w :=
    {| fs := Dir {[ ".." := Dir {[ "models" :=
               Dir (<[ "dnn_model_pt.onnx" := onnx ]>
                      {[ "tf_emnist" := Dir {[ "1" := Dir ∅ ]} ]}) ]} ]};
       stdout := [] |} in
  ∃ w', clear_export_path w = (w', Ok tt) ∧
        lookup_path (fs w') [".."; "models"; "dnn_model_pt.onnx"] = Some onnx ∧
        lookup_path (fs w') [".."; "models"; "tf_emnist"] = None.
Proof.
  intros onnx w.
  destruct (clear_export_path_frame w [".."; "models"; "dnn_model_pt.onnx"])
    as (w' & Hclear & Hl & _).
  - rewrite components_export_path. intros [k Hk]. discriminate Hk.
  - rewrite components_export_path. intros [k Hk]. discriminate Hk.
  - exists w'. split; [exact Hclear|]. split.
    + rewrite Hl. vm_compute. reflexivity.
    + assert (w' = (clear_export_path w).1) as -> by (rewrite Hclear; reflexivity).
      vm_compute. reflexivity.
Defined.

(** ** Replies without scores *)

(** X5: a reply whose [predictions] hold no score at all, no rows or
    empty rows only, makes cell 34 raise [ValueError] from [np.argmax],
    whatever the status code. *)
Theorem predict_request_no_scores (rows : list (list Q)) (code : Z) (w : World) :
  Forall (λ row, row = []) rows →
  (predict_request
     (Replied {| status_code := code;
                 body := Some (JObj [("predictions", json_rows rows)]) |}) w).2
  = Raise (ValueError "attempt to get argmax of an empty sequence").
Proof.
  intros Hrows.
  assert (np_argmax (json_rows rows)
          = Raise (ValueError "attempt to get argmax of an empty sequence")) as Hnp.
  { unfold np_argmax. rewrite as_rows_json_rows, (rectangular_uniform rows 0).
    - replace (concat rows) with (@nil Q); [done|].
      symmetry. induction Hrows as [|row rows -> _ IH]; [done|]. apply IH.
    - eapply Forall_impl; [done|]. by intros row ->. }
  unfold predict_request, cell_33, cell_34, requests_send, r_json. run_cell.
  cbn [body status_code]. by rewrite getitem_singleton, Hnp.
Qed.

Lemma predict_request_no_scores_witness :
  (predict_request
     (Replied {| status_code := 200;
                 body := Some (JObj [("predictions", json_rows [[]; []])]) |})
     empty_world).2
  = Raise (ValueError "attempt to get argmax of an empty sequence").
Proof.
  apply (predict_request_no_scores [[]; []] 200 empty_world).
  repeat constructor.
Defined.

(** ** Tensors by name *)

(** X6: in a graph whose tensor names are distinct, a lookup by name
    returns a tensor exactly when that tensor is in the graph under that
    name; in particular every tensor is found under its own name.  The
    names of the converted graph are distinct. *)
Theorem get_tensor_by_name_round_trip (graph : list Tensor) (n : string) (t : Tensor) :
  NoDup (t_name <$> graph) →
  get_tensor_by_name graph n = Ok t ↔ t ∈ graph ∧ t_name t = n.
Proof.
  intros Hnodup. unfold get_tensor_by_name. split.
  - destruct (List.find _ graph) as [t'|] eqn:Hfind; [|done]. intros [= ->].
    apply List.find_some in Hfind as [Hin Hname].
    split; [by apply list_elem_of_In|]. by apply bool_decide_eq_true in Hname.
  - intros [Ht <-].
    induction graph as [|t' graph IH]; [by apply elem_of_nil in Ht|].
    apply NoDup_cons in Hnodup as [Hnew Hnodup]. cbn [List.find].
    destruct (decide (t_name t' = t_name t)) as [Heq|Hneq].
    + rewrite bool_decide_eq_true_2 by done.
      apply elem_of_cons in Ht as [->|Ht]; [done|].
      destruct Hnew. rewrite Heq. by apply list_elem_of_fmap_2.
    + rewrite bool_decide_eq_false_2 by done.
      apply elem_of_cons in Ht as [->|Ht]; [done|]. by apply IH.
Qed.

Lemma get_tensor_by_name_round_trip_witness :
  NoDup (t_name <$> predict_net_graph) ∧
  get_tensor_by_name predict_net_graph "Softmax:0"
    = Ok (mkTensor "Softmax:0" [1; 62] float32).
Proof.
  assert (Hnodup : NoDup (t_name <$> predict_net_graph)).
  { apply (bool_decide_unpack _). vm_compute. exact I. }
  split; [exact Hnodup|].
  apply (get_tensor_by_name_round_trip predict_net_graph "Softmax:0"
           (mkTensor "Softmax:0" [1; 62] float32) Hnodup).
  split; [|reflexivity]. apply list_elem_of_In. vm_compute. auto 20.
Defined.

(** X8: in the bundle file of an export that succeeded, every descriptor
    of every signature is the descriptor of a tensor of the exported
    graph: an input descriptor that of a tensor listed as external input,
    an output descriptor that of a tensor listed as external output. *)
Theorem exported_signatures_refer_to_graph (DEFAULT_SERVING_SIGNATURE_DEF_KEY : string)
    (w w' : World) :
  export_flow DEFAULT_SERVING_SIGNATURE_DEF_KEY w = (w', Ok tt) →
  ∃ mg,
    lookup_path (fs w') saved_model_pb = Some (File (SavedModelPb [mg])) ∧
    ∀ key sig k ti, signature_def mg !! key = Some sig →
      (inputs sig !! k = Some ti →
       ∃ n t, n ∈ external_input ∧ (n, t) ∈ tensor_dict ∧ t ∈ graph_def mg ∧
              build_tensor_info t = ti) ∧
      (outputs sig !! k = Some ti →
       ∃ n t, n ∈ external_output ∧ (n, t) ∈ tensor_dict ∧ t ∈ graph_def mg ∧
              build_tensor_info t = ti).
Proof.
  intros Hflow.
  destruct (export_flow_spec DEFAULT_SERVING_SIGNATURE_DEF_KEY w) as (w1 & _ & Hw1).
  rewrite Hw1, cell_21_spec in Hflow.
  destruct (put_path _ _ _) as [n'|] eqn:Hput; [|done]. simplify_eq.
  exists (exported_meta_graph DEFAULT_SERVING_SIGNATURE_DEF_KEY).
  split; [cbn [fs]; by eapply lookup_put_path|].
  assert (Hin : ∃ n t, n ∈ external_input ∧ (n, t) ∈ tensor_dict ∧
                       t ∈ predict_net_graph ∧ build_tensor_info t = cell_12_output).
  { exists "flattened_rescaled_img_28x28",
      (mkTensor "flattened_rescaled_img_28x28:0" [1; 784] float32).
    split; [|split; [|split; [|done]]]; apply list_elem_of_In; vm_compute; auto 20. }
  assert (Hout : ∃ n t, n ∈ external_output ∧ (n, t) ∈ tensor_dict ∧
                        t ∈ predict_net_graph ∧ build_tensor_info t = cell_13_output).
  { exists "softmax_probabilities", (mkTensor "Softmax:0" [1; 62] float32).
    split; [|split; [|split; [|done]]]; apply list_elem_of_In; vm_compute; auto 20. }
  intros key sig k ti Hsig.
  cbn [signature_def exported_meta_graph graph_def] in Hsig |- *.
  unfold signature_def_map in Hsig.
  apply lookup_insert_Some in Hsig as [[_ <-]|[_ Hsig]];
    [|apply lookup_insert_Some in Hsig as [[_ <-]|[_ Hsig]];
        [|by rewrite lookup_empty in Hsig]];
    cbn [inputs outputs cell_16_output cell_19_output];
    (split; intros Hk; apply lookup_singleton_Some in Hk as [_ <-]; assumption).
Qed.

Lemma exported_signatures_refer_to_graph_witness :
  let w' := (export_flow "serving_default" empty_world).1 in
  ∃ mg, lookup_path (fs w') saved_model_pb = Some (File (SavedModelPb [mg])).
Proof.
  intros w'.
  destruct (exported_signatures_refer_to_graph "serving_default" empty_world w')
    as (mg & Hmg & _).
  - vm_compute. reflexivity.
  - exists mg. exact Hmg.
Defined.

(** ** Joining paths *)

Section Join.
Local Open Scope list_scope.
Implicit Types (s a b cur : string) (parts : list string).

Lemma split_sep_nonempty s cur : split_sep s cur ≠ [].
Proof.
  revert cur. induction s as [|c s IH]; intros cur; [done|].
  cbn [split_sep]. destruct (Ascii.eqb c sep); [done|apply IH].
Qed.

(** Splitting an appended string: the last piece of the first part goes
    on into the second. *)
Lemma split_sep_app s1 s2 cur :
  split_sep (s1 ++ s2)%string cur =
    removelast (split_sep s1 cur) ++ split_sep s2 (List.last (split_sep s1 cur) "").
Proof.
  revert cur. induction s1 as [|c s1 IH]; intros cur; [done|].
  change (String c s1 ++ s2)%string with (String c (s1 ++ s2)%string).
  cbn [split_sep]. destruct (Ascii.eqb c sep).
  - rewrite IH. pose proof (split_sep_nonempty s1 "") as Hne.
    destruct (split_sep s1 "") as [|x l]; [done|]. done.
  - apply IH.
Qed.

Lemma last_split_sep_endswith s cur :
  endswith_sep s = true → List.last (split_sep s cur) "" = "".
Proof.
  revert cur. induction s as [|c s IH]; intros cur Hend; [done|].
  destruct s as [|c' s].
  - cbn [endswith_sep] in Hend. cbn [split_sep]. by rewrite Hend.
  - change (endswith_sep (String c (String c' s))) with (endswith_sep (String c' s)) in Hend.
    change (split_sep (String c (String c' s)) cur)
      with (if Ascii.eqb c sep then cur :: split_sep (String c' s) ""
            else split_sep (String c' s) (cur ++ String c "")%string).
    destruct (Ascii.eqb c sep); [|by apply IH].
    pose proof (split_sep_nonempty (String c' s) "") as Hne.
    specialize (IH "" Hend).
    destruct (split_sep (String c' s) "") as [|x l]; [done|]. done.
Qed.

Lemma components_nil : components "" = [].
Proof. reflexivity. Qed.

(** One step of [os.path.join] with a relative part. *)
Lemma components_join_step a b :
  startswith_sep b = false →
  components (if startswith_sep b then b
              else if String.eqb a "" || endswith_sep a then (a ++ b)%string
              else (a ++ "/" ++ b)%string)
  = components a ++ components b.
Proof.
  intros Hb. rewrite Hb. unfold components.
  destruct (String.eqb a "") eqn:Ha.
  { apply String.eqb_eq in Ha as ->. done. }
  cbn [orb]. destruct (endswith_sep a) eqn:Hend.
  - rewrite split_sep_app, (last_split_sep_endswith a "" Hend), List.filter_app.
    f_equal. pose proof (split_sep_nonempty a "") as Hne.
    rewrite (app_removelast_last "" Hne) at 2.
    rewrite (last_split_sep_endswith a "" Hend), List.filter_app. cbn [List.filter].
    replace (negb (String.eqb "" "" || String.eqb "" ".")) with false by reflexivity.
    by rewrite app_nil_r.
  - rewrite split_sep_app. change ("/" ++ b)%string with (String sep b).
    cbn [split_sep]. replace (Ascii.eqb sep sep) with true by reflexivity.
    pose proof (split_sep_nonempty a "") as Hne.
    rewrite (app_removelast_last "" Hne) at 3.
    rewrite !List.filter_app. cbn [List.filter].
    destruct (negb _); by rewrite <- app_assoc.
Qed.
End Join.

(** X7: [os.path.join] of relative parts leads where the parts lead one
    after the other: the components of the joined path are those of the
    base followed by those of each part, whether or not the base or a part
    ends in a slash. *)
Theorem components_os_path_join (a : string) (parts : list string) :
  Forall (λ b, startswith_sep b = false) parts →
  components (os_path_join a parts) = (components a ++ concat (components <$> parts))%list.
Proof.
  intros Hparts. revert a. unfold os_path_join.
  induction Hparts as [|b parts Hb _ IH]; intros a.
  - cbn [fold_left fmap list_fmap concat]. by rewrite app_nil_r.
  - cbn [fold_left]. rewrite IH, components_join_step by done.
    rewrite fmap_cons. cbn [concat]. by rewrite app_assoc.
Qed.

Lemma components_os_path_join_witness :
  components (os_path_join "../models/" ["tf_emnist/"; "7"])
  = [".."; "models"; "tf_emnist"; "7"].
Proof.
  rewrite (components_os_path_join "../models/" ["tf_emnist/"; "7"]).
  - vm_compute. reflexivity.
  - repeat constructor.
Defined.

(** ** What the client cells leave behind *)

(** X9: when the server replies at all, the status cell and the predict
    cell print the status code before anything else, so it is on the
    output also when the cell then fails on the body; neither cell
    touches the file system, whatever the reply. *)
Theorem client_cells_print_status (o : reply) (w : World) :
  fs (cell_29 o w).1 = fs w ∧ fs (predict_request o w).1 = fs w ∧
  ∀ r, o = Replied r →
    let status := Line ("HTTP Response Status Code: " ++ pretty (status_code r)) in
    (∃ rest, stdout (cell_29 o w).1 = (stdout w ++ status :: rest)%list) ∧
    (∃ rest, stdout (predict_request o w).1 = (stdout w ++ status :: rest)%list).
Proof.
  unfold cell_29, predict_request, cell_33, cell_34, requests_send, r_json. run_cell.
  destruct o as [| |[code [v|]]]; cbn [body status_code fst fs].
  - split; [done|]. split; [done|]. intros r [=].
  - split; [done|]. split; [done|]. intros r [=].
  - destruct (getitem v "predictions") as [p|e]; [destruct (np_argmax p) as [i|e]|];
      cbn [fst fs stdout]; (split; [done|]; split; [done|]);
      intros r [= <-]; cbn [status_code stdout fst];
      rewrite <- ?app_assoc; cbn [app]; split; eexists; reflexivity.
  - split; [done|]. split; [done|]. intros r [= <-]. cbn [status_code stdout fst].
    rewrite <- ?app_assoc. cbn [app]. split; eexists; reflexivity.
Qed.

Lemma client_cells_print_status_witness :
  let r := {| status_code := 404; body := None |} in
  ∃ rest, stdout (predict_request (Replied r) empty_world).1
          = (Line "HTTP Response Status Code: 404" :: rest)%list.
Proof.
  intros r.
  destruct (client_cells_print_status (Replied r) empty_world) as (_ & _ & H).
  destruct (H r eq_refl) as [_ [rest Hrest]].
  exists rest. rewrite Hrest. reflexivity.
Defined.

(** ** The guard of cell 6 *)


